(** * SpotifyAPI.py: the connector's two-step request flow

    A shallow embedding of [SpotifyConnector] (src/SpotifyAPI.py): the
    constructor, [_generate_auth_token] and [find], over an explicit
    machine state that holds the connector object, the state of the HTTP
    collaborator and the log of the requests handed to it. *)

From Stdlib Require Import List NArith ZArith String Ascii Bool Lia.
From Stdlib.Strings Require Import Byte.
From Stdlib Require Import DecimalString.
Import ListNotations.

Set Warnings "-register-all".
Local Open Scope N_scope.

(** ** Exceptions and fallible results *)

(** The exceptions the code paths of the connector can meet.  The ones the
    HTTP collaborator raises itself (transport failures, a body that is
    not JSON) are carried by name. *)
Inductive exn : Type :=
| UnicodeEncodeError
| UnicodeDecodeError
| AttributeError
| CollaboratorError (name : string).

Inductive Result (A : Type) : Type :=
| Ok (a : A)
| Raise (e : exn).
Arguments Ok {A} a.
Arguments Raise {A} e.

Definition result_map {A B : Type} (f : A -> B) (r : Result A) : Result B :=
  match r with
  | Ok a => Ok (f a)
  | Raise e => Raise e
  end.

Definition result_bind {A B : Type} (r : Result A) (f : A -> Result B)
  : Result B :=
  match r with
  | Ok a => f a
  | Raise e => Raise e
  end.

(** ** Python strings and bytes *)

(** A Python [str] is a sequence of code points; [bytes] is a sequence of
    octets.  Code points above U+10FFFF do not occur in a [str]. *)
Abbreviation str := (list N) (only parsing).
Abbreviation bytes := (list byte) (only parsing).

Definition is_codepoint (c : N) : bool := c <? 0x110000.
Definition is_surrogate (c : N) : bool := (0xD800 <=? c) && (c <=? 0xDFFF).

(** The code points UTF-8 can carry: Unicode scalar values. *)
Definition is_scalar (c : N) : bool := is_codepoint c && negb (is_surrogate c).

Definition wf_str (s : str) : bool := forallb is_codepoint s.
Definition encodable (s : str) : bool := forallb is_scalar s.

(** A literal of the source file (all of them are ASCII). *)
Definition lit (s : string) : str := map N_of_ascii (list_ascii_of_string s).

Fixpoint str_eqb (s t : str) : bool :=
  match s, t with
  | [], [] => true
  | c :: s', d :: t' => (c =? d) && str_eqb s' t'
  | _, _ => false
  end.

(** The octet with value [n mod 256]. *)
Definition octet (n : N) : byte :=
  match Byte.of_N (n mod 256) with
  | Some b => b
  | None => x00
  end.

(** [str.encode()]: strict UTF-8.  A lone surrogate raises
    [UnicodeEncodeError]. *)
Definition encode_char (c : N) : Result bytes :=
  if c <? 0x80 then Ok [octet c]
  else if c <? 0x800 then
    Ok [octet (0xC0 + c / 64); octet (0x80 + c mod 64)]
  else if c <? 0x10000 then
    if is_surrogate c then Raise UnicodeEncodeError
    else Ok [octet (0xE0 + c / 4096);
             octet (0x80 + (c / 64) mod 64);
             octet (0x80 + c mod 64)]
  else if c <? 0x110000 then
    Ok [octet (0xF0 + c / 262144);
        octet (0x80 + (c / 4096) mod 64);
        octet (0x80 + (c / 64) mod 64);
        octet (0x80 + c mod 64)]
  else Raise UnicodeEncodeError.

Fixpoint encode (s : str) : Result bytes :=
  match s with
  | [] => Ok []
  | c :: s' =>
      result_bind (encode_char c) (fun bs =>
      result_map (app bs) (encode s'))
  end.

(** [bytes.decode()]: strict UTF-8.  Overlong forms, surrogates, values
    above U+10FFFF, stray continuation octets and truncated sequences
    raise [UnicodeDecodeError]. *)
Definition is_cont (b : byte) : bool :=
  (0x80 <=? Byte.to_N b) && (Byte.to_N b <? 0xC0).

Definition cont_bits (b : byte) : N := Byte.to_N b mod 64.

Fixpoint decode (bs : bytes) : Result str :=
  match bs with
  | [] => Ok []
  | b0 :: r0 =>
      let n0 := Byte.to_N b0 in
      if n0 <? 0x80 then result_map (cons n0) (decode r0)
      else if n0 <? 0xC0 then Raise UnicodeDecodeError
      else if n0 <? 0xE0 then
        match r0 with
        | b1 :: r1 =>
            let c := (n0 - 0xC0) * 64 + cont_bits b1 in
            if is_cont b1 && (0x80 <=? c)
            then result_map (cons c) (decode r1)
            else Raise UnicodeDecodeError
        | _ => Raise UnicodeDecodeError
        end
      else if n0 <? 0xF0 then
        match r0 with
        | b1 :: b2 :: r2 =>
            let c := (n0 - 0xE0) * 4096 + cont_bits b1 * 64 + cont_bits b2 in
            if is_cont b1 && is_cont b2 && (0x800 <=? c)
               && negb (is_surrogate c)
            then result_map (cons c) (decode r2)
            else Raise UnicodeDecodeError
        | _ => Raise UnicodeDecodeError
        end
      else if n0 <? 0xF8 then
        match r0 with
        | b1 :: b2 :: b3 :: r3 =>
            let c := (n0 - 0xF0) * 262144 + cont_bits b1 * 4096
                     + cont_bits b2 * 64 + cont_bits b3 in
            if is_cont b1 && is_cont b2 && is_cont b3
               && (0x10000 <=? c) && (c <? 0x110000)
            then result_map (cons c) (decode r3)
            else Raise UnicodeDecodeError
        | _ => Raise UnicodeDecodeError
        end
      else Raise UnicodeDecodeError
  end.

(** ** [base64.b64encode] (RFC 4648, standard alphabet, padded) *)

Definition b64_alphabet : bytes :=
  list_byte_of_string
    "ABCDEFGHIJKLMNOPQRSTUVWXYZabcdefghijklmnopqrstuvwxyz0123456789+/".

Definition b64_pad : byte := "="%byte.

Definition b64_char (n : N) : byte := nth (N.to_nat n) b64_alphabet b64_pad.

Fixpoint b64encode (bs : bytes) : bytes :=
  match bs with
  | [] => []
  | a :: r1 =>
      let x := Byte.to_N a in
      match r1 with
      | [] =>
          [b64_char (x / 4); b64_char ((x mod 4) * 16); b64_pad; b64_pad]
      | b :: r2 =>
          let y := Byte.to_N b in
          match r2 with
          | [] =>
              [b64_char (x / 4);
               b64_char ((x mod 4) * 16 + y / 16);
               b64_char ((y mod 16) * 4);
               b64_pad]
          | c :: rest =>
              let z := Byte.to_N c in
              b64_char (x / 4)
              :: b64_char ((x mod 4) * 16 + y / 16)
              :: b64_char ((y mod 16) * 4 + z / 64)
              :: b64_char (z mod 64)
              :: b64encode rest
          end
      end
  end.

(** The inverse reading of a padded base64 text, used to state that the
    encoded credentials can be read back octet for octet. *)
Fixpoint index_from (i : N) (b : byte) (l : bytes) : option N :=
  match l with
  | [] => None
  | x :: l' => if Byte.eqb x b then Some i else index_from (i + 1) b l'
  end.

Definition b64_index (b : byte) : option N := index_from 0 b b64_alphabet.

Definition is_nil {A : Type} (l : list A) : bool :=
  match l with [] => true | _ => false end.

Fixpoint b64decode (cs : bytes) : option bytes :=
  match cs with
  | [] => Some []
  | c1 :: c2 :: c3 :: c4 :: rest =>
      match b64_index c1, b64_index c2 with
      | Some s1, Some s2 =>
          let a := octet (s1 * 4 + s2 / 16) in
          match b64_index c3, b64_index c4 with
          | Some s3, Some s4 =>
              option_map
                (fun tl => a :: octet ((s2 mod 16) * 16 + s3 / 4)
                             :: octet ((s3 mod 4) * 64 + s4) :: tl)
                (b64decode rest)
          | Some s3, None =>
              if Byte.eqb c4 b64_pad && is_nil rest
              then Some [a; octet ((s2 mod 16) * 16 + s3 / 4)]
              else None
          | None, None =>
              if Byte.eqb c3 b64_pad && Byte.eqb c4 b64_pad && is_nil rest
              then Some [a]
              else None
          | None, Some _ => None
          end
      | _, _ => None
      end
  | _ => None
  end.

Definition bytes_lit (s : string) : bytes := list_byte_of_string s.

(** ** JSON values, as [Response.json()] hands them to the code *)

(** [JNull] is Python's [None]; a float is kept as its binary64 pattern;
    a [dict] is its items in insertion order, keys distinct. *)
Inductive JSON : Type :=
| JNull
| JBool (b : bool)
| JInt (z : Z)
| JFloat (bits64 : N)
| JStr (s : str)
| JArr (items : list JSON)
| JObj (fields : list (str * JSON)).

Fixpoint dict_lookup (k : str) (d : list (str * JSON)) : option JSON :=
  match d with
  | [] => None
  | (k', v) :: d' => if str_eqb k' k then Some v else dict_lookup k d'
  end.

(** [v.get(k, default)]: only a [dict] has the method. *)
Definition py_get (v : JSON) (k : str) (default : JSON) : Result JSON :=
  match v with
  | JObj d =>
      Ok (match dict_lookup k d with
          | Some x => x
          | None => default
          end)
  | _ => Raise AttributeError
  end.

(** ** The HTTP collaborator *)

Inductive Method : Type := POST | GET.

(** What the code hands to [requests.post] / [requests.get]: the URL, the
    form payload ([data=], absent for a GET) and the header dictionary. *)
Record Request : Type := mkRequest {
  method : Method;
  url : str;
  data : option (list (str * str));
  headers : list (str * str)
}.

(** What the code can observe of a response: [json()] returns a value or
    raises.  The status code is there and never read. *)
Record Response : Type := mkResponse {
  status_code : N;
  json : Result JSON
}.

Record SpotifyConnector : Type := mkConnector {
  app_id : str;
  app_secret : str
}.

Definition BASE_TOKEN_URL : str := lit "https://accounts.spotify.com/api/token".
Definition BASE_API_URL : str := lit "https://api.spotify.com/v1/".

Section Connector.

(** The network behind [requests]: any state, any answers, any failures. *)
Variable World : Type.
Variable send : Request -> World -> Result Response * World.

(** Python's own rendering of floats, lists and dicts (the interpreter's
    [repr], which the connector never looks into). *)
Variable py_repr : JSON -> str.

(** [format(v, '')], what an f-string field [{v}] expands to. *)
Definition py_str (v : JSON) : str :=
  match v with
  | JNull => lit "None"
  | JBool true => lit "True"
  | JBool false => lit "False"
  | JInt z => lit (NilZero.string_of_int (Z.to_int z))
  | JStr s => s
  | JFloat _ | JArr _ | JObj _ => py_repr v
  end.

(** The connector object, the network and the requests issued so far,
    oldest first. *)
Record Machine : Type := mkMachine {
  self : SpotifyConnector;
  net : World;
  sent : list Request
}.

Definition M (A : Type) : Type := Machine -> Result A * Machine.

Definition ret {A : Type} (a : A) : M A := fun m => (Ok a, m).

Definition bind {A B : Type} (c : M A) (k : A -> M B) : M B :=
  fun m =>
    match c m with
    | (Ok a, m') => k a m'
    | (Raise e, m') => (Raise e, m')
    end.

Definition lift {A : Type} (r : Result A) : M A := fun m => (r, m).

Notation "x <- c ;; k" := (bind c (fun x => k))
  (at level 61, c at next level, right associativity).
Notation "c ;;; k" := (bind c (fun _ => k))
  (at level 61, right associativity).

Definition get_app_id : M str := fun m => (Ok (app_id (self m)), m).
Definition get_app_secret : M str := fun m => (Ok (app_secret (self m)), m).

Definition set_app_id (v : str) : M unit := fun m =>
  (Ok tt, mkMachine (mkConnector v (app_secret (self m))) (net m) (sent m)).
Definition set_app_secret (v : str) : M unit := fun m =>
  (Ok tt, mkMachine (mkConnector (app_id (self m)) v) (net m) (sent m)).

(** One call into [requests]: the request is logged, the network answers
    or raises. *)
Definition request (r : Request) : M Response := fun m =>
  let (outcome, w) := send r (net m) in
  (outcome, mkMachine (self m) w (sent m ++ [r])).

Definition requests_post (u : str) (payload : list (str * str))
    (hs : list (str * str)) : M Response :=
  request (mkRequest POST u (Some payload) hs).

Definition requests_get (u : str) (hs : list (str * str)) : M Response :=
  request (mkRequest GET u None hs).

(** [SpotifyConnector.__init__] *)
Definition __init__ (app_id app_secret : str) : M unit :=
  set_app_id app_id ;;;
  set_app_secret app_secret.

(** [SpotifyConnector._generate_auth_token] *)
Definition _generate_auth_token : M JSON :=
  id <- get_app_id ;;
  secret <- get_app_secret ;;
  let credentials := id ++ lit ":" ++ secret in
  encoded_creds <- lift (result_map b64encode (encode credentials)) ;;
  let payload := [(lit "grant_type", lit "client_credentials")] in
  basic <- lift (decode encoded_creds) ;;
  let headers := [(lit "Authorization", lit "Basic " ++ basic)] in
  response <- requests_post BASE_TOKEN_URL payload headers ;;
  body <- lift (json response) ;;
  lift (py_get body (lit "access_token") JNull).

(** [SpotifyConnector.find]; [kind = None] is the call that omits the
    argument. *)
Definition find (term : str) (kind : option str) : M JSON :=
  let kind := match kind with Some k => k | None => lit "track" end in
  token <- _generate_auth_token ;;
  let request_headers :=
    [(lit "Authorization", lit "Bearer " ++ py_str token)] in
  let search_endpoint :=
    BASE_API_URL ++ lit "search?q=" ++ term ++ lit "&type=" ++ kind in
  result <- requests_get search_endpoint request_headers ;;
  lift (json result).

End Connector.

Arguments mkMachine {World} self net sent.
Arguments self {World} m.
Arguments net {World} m.
Arguments sent {World} m.
Arguments ret {World A} a m.
Arguments bind {World A B} c k m.
Arguments lift {World A} r m.
Arguments request {World} send r m.
Arguments __init__ {World} app_id app_secret m.
Arguments _generate_auth_token {World} send m.
Arguments find {World} send py_repr term kind m.

(** ** The two requests in closed form *)

Definition credentials (c : SpotifyConnector) : str :=
  app_id c ++ lit ":" ++ app_secret c.

(** The text of ASCII octets. *)
Definition ascii_text (bs : bytes) : str := map Byte.to_N bs.

Definition token_post (bs : bytes) : Request :=
  mkRequest POST BASE_TOKEN_URL
    (Some [(lit "grant_type", lit "client_credentials")])
    [(lit "Authorization", lit "Basic " ++ ascii_text (b64encode bs))].

Definition search_get (bearer term kind : str) : Request :=
  mkRequest GET
    (BASE_API_URL ++ lit "search?q=" ++ term ++ lit "&type=" ++ kind)
    None
    [(lit "Authorization", lit "Bearer " ++ bearer)].

Definition kind_or_default (kind : option str) : str :=
  match kind with
  | Some k => k
  | None => lit "track"
  end.

(** What [_generate_auth_token] makes of the outcome of its POST. *)
Definition token_of (outcome : Result Response) : Result JSON :=
  result_bind outcome (fun response =>
  result_bind (json response) (fun body =>
  py_get body (lit "access_token") JNull)).

(** ** Sequences of calls on one connector *)

(** A caller's use of the connector's operations.  The caller may catch
    what an operation raises and go on: the machine is what one call
    leaves to the next. *)
Inductive Call : Type :=
| CallToken
| CallFind (term : str) (kind : option str).

Definition run_call {World : Type}
    (send : Request -> World -> Result Response * World)
    (py_repr : JSON -> str) (c : Call) (m : Machine World) : Machine World :=
  match c with
  | CallToken => snd (_generate_auth_token send m)
  | CallFind term kind => snd (find send py_repr term kind m)
  end.

Definition run_calls {World : Type}
    (send : Request -> World -> Result Response * World)
    (py_repr : JSON -> str) (cs : list Call) (m : Machine World)
  : Machine World :=
  fold_left (fun m' c => run_call send py_repr c m') cs m.

(** ** A scripted network, for concrete runs *)

(** The network answers the requests it receives with the outcomes of a
    script, in order; once the script is exhausted the transport fails. *)
Definition Script : Type := list (Result Response).

Definition play (r : Request) (w : Script) : Result Response * Script :=
  match w with
  | [] => (Raise (CollaboratorError "ConnectionError"), [])
  | outcome :: w' => (outcome, w')
  end.

Definition repr_elided (v : JSON) : str := lit "...".

(** A connector object before [__init__] has run on it. *)
Definition blank : SpotifyConnector := mkConnector [] [].

Definition construct {World : Type} (id secret : str) (w : World)
  : Machine World :=
  snd (__init__ id secret (mkMachine blank w [])).

Definition token_body (t : str) : Response :=
  mkResponse 200 (Ok (JObj [(lit "access_token", JStr t)])).

Definition invalid_client : Response :=
  mkResponse 400 (Ok (JObj [(lit "error", JStr (lit "invalid_client"))])).

Definition artists_page : JSON :=
  JObj [(lit "artists",
         JObj [(lit "items", JArr [JObj [(lit "name", JStr (lit "Imagine Dragons"));
                                         (lit "popularity", JInt 89)]]);
               (lit "total", JInt 1)])].

Definition demo_bytes : list byte := bytes_lit "YOUR_APP_ID:YOUR_APP_SECRET".

Definition demo (w : Script) : Machine Script :=
  construct (lit "YOUR_APP_ID") (lit "YOUR_APP_SECRET") w.

(** The demo connector once its token POST has been answered. *)
Definition demo_after_post (w : Script) : Machine Script :=
  mkMachine (mkConnector (lit "YOUR_APP_ID") (lit "YOUR_APP_SECRET")) w
    [token_post demo_bytes].

Definition search_ok : Response := mkResponse 200 (Ok artists_page).

Definition unauthorized : Response :=
  mkResponse 401
    (Ok (JObj [(lit "error",
                JObj [(lit "status", JInt 401);
                      (lit "message", JStr (lit "Invalid access token"))])])).

Definition script_ok : Script := [Ok (token_body (lit "T")); Ok search_ok].

Definition script_rejected : Script := [Ok invalid_client; Ok unauthorized].

Definition script_twice : Script :=
  [Ok (token_body (lit "T1")); Ok search_ok;
   Ok (token_body (lit "T2")); Ok search_ok].

(** A connector whose identifier is a lone surrogate, a [str] that
    Python builds and strict UTF-8 does not encode. *)
Definition lone_surrogate : Machine Script :=
  construct [0xD800] (lit "secret") script_ok.

(** Whether a JSON value is an object, the only kind with [get]. *)
Definition is_object (v : JSON) : bool :=
  match v with
  | JObj _ => true
  | _ => false
  end.

(** Whether a JSON value has a field of the given name; only an object
    has fields. *)
Definition has_field (k : list N) (v : JSON) : bool :=
  match v with
  | JObj d =>
      match dict_lookup k d with
      | Some _ => true
      | None => false
      end
  | _ => false
  end.

(** A token endpoint that answers with a JSON list. *)
Definition script_list_body : Script :=
  [Ok (mkResponse 200 (Ok (JArr []))); Ok search_ok].

(** Credentials outside ASCII: "id" and the euro sign, "s" and an emoji. *)
Definition non_ascii (w : Script) : Machine Script :=
  construct (lit "id" ++ [0x20AC]) (lit "s" ++ [0x1F600]) w.

Definition non_ascii_bytes : list byte :=
  [x69; x64; xe2; x82; xac; x3a; x73; xf0; x9f; x98; x80].

(** ** What a session puts on the wire *)

(** The shape of a stretch of the request log: token POSTs, each one alone
    or followed at once by one GET. *)
Inductive Exchanges (post : Request) : list Request -> Prop :=
| exchanges_nil : Exchanges post []
| exchanges_post (l : list Request) :
    Exchanges post l -> Exchanges post (post :: l)
| exchanges_pair (get : Request) (l : list Request) :
    method get = GET -> Exchanges post l -> Exchanges post (post :: get :: l).

(** ** The demonstration at the end of the module *)

(** The [if __name__ == "__main__"] block.  [print] is the interpreter's,
    over whatever the console is: it may write or raise. *)
Definition main {World Console : Type}
    (send : Request -> World -> Result Response * World)
    (py_repr : JSON -> list N)
    (print : JSON -> Console -> Result unit * Console)
    (w : World) (c : Console)
  : Result unit * (Machine World * Console) :=
  let app_id := lit "YOUR_APP_ID" in
  let app_secret := lit "YOUR_APP_SECRET" in
  match bind (__init__ app_id app_secret)
             (fun _ => find send py_repr (lit "Imagine Dragons")
                         (Some (lit "artist")))
             (mkMachine blank w []) with
  | (Ok search_output, m) =>
      let (r, c') := print search_output c in (r, (m, c'))
  | (Raise e, m) => (Raise e, (m, c))
  end.

(** A console that keeps what is printed, for concrete runs. *)
Definition keep (v : JSON) (c : list JSON) : Result unit * list JSON :=
  (Ok tt, c ++ [v]).

(** The demo connector with the colon moved from between the fields into
    one of them. *)
Definition colon_left (w : Script) : Machine Script :=
  construct (lit "YOUR_APP" ++ lit ":" ++ lit "ID") (lit "SECRET") w.

Definition colon_right (w : Script) : Machine Script :=
  construct (lit "YOUR_APP") (lit "ID" ++ lit ":" ++ lit "SECRET") w.

Definition script_down : Script := [Raise (CollaboratorError "Timeout")].

Definition not_json : Response :=
  mkResponse 502 (Raise (CollaboratorError "JSONDecodeError")).

Definition session : list Call :=
  [CallFind (lit "Believer") None; CallToken;
   CallFind (lit "Imagine Dragons") (Some (lit "artist"))].

(** ** Auxiliary notions for the proofs *)

Definition sextets : list N := map N.of_nat (seq 0 64).

Definition sextet_ok (n : N) : bool :=
  match b64_index (b64_char n) with
  | Some k => (k =? n) && (Byte.to_N (b64_char n) <? 128)
  | None => false
  end.

Definition is_ascii (b : byte) : Prop := Byte.to_N b < 128.

(** ** Octets and code points *)

Ltac Zify.zify_post_hook ::= Z.to_euclidean_division_equations.

Lemma octet_to_N (b : byte) : octet (Byte.to_N b) = b.
Proof.
  unfold octet.
  pose proof (Byte.to_N_bounded b) as Hb.
  rewrite N.mod_small by lia.
  now rewrite Byte.of_to_N.
Qed.

Lemma to_N_octet (n : N) : n < 256 -> Byte.to_N (octet n) = n.
Proof.
  intros Hn. unfold octet.
  rewrite N.mod_small by exact Hn.
  destruct (Byte.of_N n) as [b|] eqn:E.
  - now apply Byte.to_of_N.
  - apply Byte.of_N_None_iff in E. lia.
Qed.

(** Lists of octets are handled three at a time. *)
Lemma bytes_ind3 (P : bytes -> Prop) :
  P [] ->
  (forall a, P [a]) ->
  (forall a b, P [a; b]) ->
  (forall a b c r, P r -> P (a :: b :: c :: r)) ->
  forall l, P l.
Proof.
  intros H0 H1 H2 H3.
  fix IH 1.
  intros [|a [|b [|c r]]].
  - exact H0.
  - apply H1.
  - apply H2.
  - apply H3, IH.
Qed.

(** ** Facts about the base64 alphabet and the encoder *)

Lemma sextets_complete (n : N) : n < 64 -> In n sextets.
Proof.
  intros Hn. unfold sextets.
  rewrite <- (N2Nat.id n). apply in_map, in_seq. lia.
Qed.

Lemma sextet_ok_all (n : N) : n < 64 -> sextet_ok n = true.
Proof.
  intros Hn.
  assert (H : forallb sextet_ok sextets = true) by (vm_compute; reflexivity).
  rewrite forallb_forall in H. apply H, sextets_complete, Hn.
Qed.

Lemma b64_index_char (n : N) : n < 64 -> b64_index (b64_char n) = Some n.
Proof.
  intros Hn. pose proof (sextet_ok_all n Hn) as H. unfold sextet_ok in H.
  destruct (b64_index (b64_char n)) as [k|]; [|discriminate].
  apply andb_true_iff in H. destruct H as [H _].
  apply N.eqb_eq in H. now subst.
Qed.

Lemma b64_char_ascii (n : N) : n < 64 -> Byte.to_N (b64_char n) < 128.
Proof.
  intros Hn. pose proof (sextet_ok_all n Hn) as H. unfold sextet_ok in H.
  destruct (b64_index (b64_char n)) as [k|]; [|discriminate].
  apply andb_true_iff in H. destruct H as [_ H].
  now apply N.ltb_lt in H.
Qed.

Lemma b64_index_pad : b64_index b64_pad = None.
Proof. reflexivity. Qed.

Lemma b64_pad_ascii : is_ascii b64_pad.
Proof. unfold is_ascii. vm_compute. reflexivity. Qed.

Ltac byte_bounds :=
  repeat match goal with
  | b : byte |- _ =>
      lazymatch goal with
      | _ : Byte.to_N b <= 255 |- _ => fail
      | _ => pose proof (Byte.to_N_bounded b)
      end
  end.

(** Every octet [b64encode] produces is an ASCII character. *)
Lemma b64encode_ascii (bs : bytes) : Forall is_ascii (b64encode bs).
Proof.
  induction bs as [|a|a b|a b c r IH] using bytes_ind3;
    cbn [b64encode]; byte_bounds;
    repeat (apply Forall_cons; [first [apply b64_pad_ascii
                                      | apply b64_char_ascii; lia]|]);
    first [apply Forall_nil | exact IH].
Qed.

Lemma octet_eq (b : byte) (n : N) : n = Byte.to_N b -> octet n = b.
Proof. intros ->. apply octet_to_N. Qed.

(** The base64 text reads back to the octets it was made from. *)
Lemma b64decode_b64encode (bs : bytes) : b64decode (b64encode bs) = Some bs.
Proof.
  induction bs as [|a|a b|a b c r IH] using bytes_ind3;
    cbn [b64encode b64decode]; byte_bounds.
  - reflexivity.
  - rewrite !b64_index_char by lia. rewrite b64_index_pad. cbn.
    repeat f_equal; apply octet_eq; lia.
  - rewrite !b64_index_char by lia. rewrite b64_index_pad. cbn.
    repeat f_equal; apply octet_eq; lia.
  - rewrite !b64_index_char by lia. rewrite IH. cbn [option_map].
    repeat f_equal; apply octet_eq; lia.
Qed.

(** ** Facts about the UTF-8 codec *)

Ltac decide_tests :=
  repeat match goal with
  | |- context [?a <? ?b] =>
      first [ replace (a <? b) with true by (symmetry; apply N.ltb_lt; lia)
            | replace (a <? b) with false by (symmetry; apply N.ltb_ge; lia) ]
  | |- context [?a <=? ?b] =>
      first [ replace (a <=? b) with true by (symmetry; apply N.leb_le; lia)
            | replace (a <=? b) with false by (symmetry; apply N.leb_gt; lia) ]
  end.

(** ASCII octets decode to the code points of the same value. *)
Lemma decode_ascii (bs : bytes) :
  Forall is_ascii bs -> decode bs = Ok (map Byte.to_N bs).
Proof.
  induction 1 as [|b bs Hb _ IH]; [reflexivity|].
  cbn [decode map]. unfold is_ascii in Hb.
  decide_tests. now rewrite IH.
Qed.

#[local] Opaque N.add N.mul N.div N.modulo N.sub.

Lemma decode_encode_char (c : N) (bs rest : bytes) :
  encode_char c = Ok bs ->
  decode (bs ++ rest) = result_map (cons c) (decode rest).
Proof.
  unfold encode_char, is_surrogate.
  destruct (N.ltb_spec c 0x80) as [H1|H1].
  { intros [= <-]. cbn [app decode].
    rewrite !to_N_octet by lia. now decide_tests. }
  destruct (N.ltb_spec c 0x800) as [H2|H2].
  { intros [= <-]. cbn [app decode]. unfold is_cont, cont_bits.
    rewrite !to_N_octet by lia. decide_tests. cbn [andb].
    do 2 f_equal. lia. }
  destruct (N.ltb_spec c 0x10000) as [H3|H3].
  { destruct (N.leb_spec 0xD800 c) as [H4|H4];
      destruct (N.leb_spec c 0xDFFF) as [H5|H5]; cbn [andb];
      try discriminate; try lia;
      intros [= <-]; cbn [app decode]; unfold is_cont, cont_bits, is_surrogate;
      rewrite !to_N_octet by lia;
      decide_tests; cbn [andb negb]; do 2 f_equal; lia. }
  destruct (N.ltb_spec c 0x110000) as [H4|H4]; [|discriminate].
  intros [= <-]. cbn [app decode]. unfold is_cont, cont_bits.
  rewrite !to_N_octet by lia.
  decide_tests. cbn [andb]. do 2 f_equal. lia.
Qed.

#[local] Transparent N.add N.mul N.div N.modulo N.sub.

(** [decode] undoes [encode]: the octets carry the string itself. *)
Lemma decode_encode (s : str) (bs : bytes) :
  encode s = Ok bs -> decode bs = Ok s.
Proof.
  revert bs. induction s as [|c s IH]; intros bs; cbn [encode].
  - now intros [= <-].
  - destruct (encode_char c) as [cs|e] eqn:Ec; [|discriminate].
    destruct (encode s) as [ts|e] eqn:Es; [|discriminate].
    cbn [result_bind result_map]. intros [= <-].
    rewrite (decode_encode_char c cs ts Ec), (IH ts eq_refl). reflexivity.
Qed.

Lemma encode_char_scalar (c : N) :
  is_scalar c = true -> exists bs, encode_char c = Ok bs.
Proof.
  unfold is_scalar, is_codepoint, encode_char. intros H.
  apply andb_true_iff in H. destruct H as [Hc Hs].
  apply negb_true_iff in Hs. rewrite Hs, Hc.
  destruct (c <? 0x80); [eauto|].
  destruct (c <? 0x800); [eauto|].
  destruct (c <? 0x10000); eauto.
Qed.

(** Strict UTF-8 encoding succeeds exactly on strings of scalar values. *)
Lemma encode_total (s : str) :
  encodable s = true -> exists bs, encode s = Ok bs.
Proof.
  induction s as [|c s IH]; cbn [encodable forallb encode]; intros H.
  - now exists [].
  - apply andb_true_iff in H. destruct H as [Hc Hs].
    destruct (encode_char_scalar c Hc) as [cs ->].
    destruct (IH Hs) as [ts ->]. cbn. eauto.
Qed.

Lemma encodable_app (s t : str) :
  encodable (s ++ t) = encodable s && encodable t.
Proof. apply forallb_app. Qed.

(** ** Test vectors *)

Example b64_rfc_f : b64encode (bytes_lit "f") = bytes_lit "Zg==".
Proof. reflexivity. Qed.
Example b64_rfc_fo : b64encode (bytes_lit "fo") = bytes_lit "Zm8=".
Proof. reflexivity. Qed.
Example b64_rfc_foobar : b64encode (bytes_lit "foobar") = bytes_lit "Zm9vYmFy".
Proof. reflexivity. Qed.
Example b64_rfc_fooba_back :
  b64decode (bytes_lit "Zm9vYmE=") = Some (bytes_lit "fooba").
Proof. reflexivity. Qed.
Example encode_euro : encode [0x20AC] = Ok [xe2; x82; xac].
Proof. reflexivity. Qed.
Example decode_euro : decode [xe2; x82; xac] = Ok [0x20AC].
Proof. reflexivity. Qed.
Example encode_surrogate : encode [0xD800] = Raise UnicodeEncodeError.
Proof. reflexivity. Qed.

Section Runs.

Context {World : Type}.
Variable send : Request -> World -> Result Response * World.
Variable py_repr : JSON -> str.

(** With encodable credentials the token operation is one POST. *)
Lemma token_run (m : Machine World) (bs : bytes) :
  encode (credentials (self m)) = Ok bs ->
  _generate_auth_token send m =
    (token_of (fst (send (token_post bs) (net m))),
     mkMachine (self m) (snd (send (token_post bs) (net m)))
               (sent m ++ [token_post bs])).
Proof.
  intros Hbs.
  unfold _generate_auth_token, bind, get_app_id, get_app_secret, lift.
  fold (credentials (self m)). rewrite Hbs. cbn [result_map].
  rewrite (decode_ascii _ (b64encode_ascii bs)).
  unfold requests_post, request. fold (ascii_text (b64encode bs)).
  fold (token_post bs).
  destruct (send (token_post bs) (net m)) as [[resp|e] w]; cbn [fst snd].
  - cbn [self net sent token_of result_bind].
    destruct (json resp) as [body|e]; [|reflexivity].
    cbn [result_bind]. now destruct (py_get body _ _).
  - reflexivity.
Qed.

(** With credentials that do not encode, it raises before any request. *)
Lemma token_raise (m : Machine World) (e : exn) :
  encode (credentials (self m)) = Raise e ->
  _generate_auth_token send m = (Raise e, m).
Proof.
  intros He.
  unfold _generate_auth_token, bind, get_app_id, get_app_secret, lift.
  fold (credentials (self m)). now rewrite He.
Qed.

Lemma token_ok_inv (m m1 : Machine World) (tok : JSON) :
  _generate_auth_token send m = (Ok tok, m1) ->
  exists bs,
    encode (credentials (self m)) = Ok bs /\
    token_of (fst (send (token_post bs) (net m))) = Ok tok /\
    m1 = mkMachine (self m) (snd (send (token_post bs) (net m)))
                   (sent m ++ [token_post bs]).
Proof.
  destruct (encode (credentials (self m))) as [bs|e] eqn:E.
  - rewrite (token_run m bs E). intros [= Ht Hm]. now exists bs.
  - rewrite (token_raise m e E). discriminate.
Qed.

(** [find] after a token operation that returned: one GET, and the
    parsed body of its response. *)
Lemma find_run (term : str) (kind : option str) (m m1 : Machine World)
    (tok : JSON) :
  _generate_auth_token send m = (Ok tok, m1) ->
  let get := search_get (py_str py_repr tok) term (kind_or_default kind) in
  find send py_repr term kind m =
    (result_bind (fst (send get (net m1))) json,
     mkMachine (self m1) (snd (send get (net m1))) (sent m1 ++ [get])).
Proof.
  intros Ht get. unfold find, bind. rewrite Ht.
  unfold requests_get, request, lift. fold (kind_or_default kind).
  fold (search_get (py_str py_repr tok) term (kind_or_default kind)).
  fold get.
  destruct (send get (net m1)) as [[resp|e] w]; reflexivity.
Qed.

(** [find] after a token operation that raised: the exception, and no
    further request. *)
Lemma find_raise (term : str) (kind : option str) (m m1 : Machine World)
    (e : exn) :
  _generate_auth_token send m = (Raise e, m1) ->
  find send py_repr term kind m = (Raise e, m1).
Proof. intros Ht. unfold find, bind. now rewrite Ht. Qed.

(** Neither operation writes to the connector object. *)
Lemma token_self (m : Machine World) :
  self (snd (_generate_auth_token send m)) = self m.
Proof.
  destruct (encode (credentials (self m))) as [bs|e] eqn:E.
  - now rewrite (token_run m bs E).
  - now rewrite (token_raise m e E).
Qed.

Lemma find_self (term : str) (kind : option str) (m : Machine World) :
  self (snd (find send py_repr term kind m)) = self m.
Proof.
  pose proof (token_self m) as Hs.
  destruct (_generate_auth_token send m) as [[tok|e] m1] eqn:Ht.
  - rewrite (find_run term kind m m1 tok Ht). exact Hs.
  - rewrite (find_raise term kind m m1 e Ht). exact Hs.
Qed.

End Runs.

(** ** Concrete runs *)

Example demo_basic_header :
  headers (token_post demo_bytes) =
  [(lit "Authorization", lit "Basic WU9VUl9BUFBfSUQ6WU9VUl9BUFBfU0VDUkVU")].
Proof. reflexivity. Qed.

Example demo_non_ascii_header :
  result_map (fun bs => ascii_text (b64encode bs))
    (encode (lit "id" ++ [0x20AC] ++ lit ":s" ++ [0x1F600])) =
  Ok (lit "aWTigqw6c/CfmIA=").
Proof. reflexivity. Qed.

Example demo_find :
  find play repr_elided (lit "Imagine Dragons") (Some (lit "artist"))
       (demo script_ok) =
  (Ok artists_page,
   mkMachine (mkConnector (lit "YOUR_APP_ID") (lit "YOUR_APP_SECRET")) []
     [token_post demo_bytes;
      mkRequest GET
        (lit "https://api.spotify.com/v1/search?q=Imagine Dragons&type=artist")
        None [(lit "Authorization", lit "Bearer T")]]).
Proof. reflexivity. Qed.

Example demo_numeric_token :
  sent (snd (find play repr_elided (lit "x") None
               (demo [Ok (mkResponse 200
                            (Ok (JObj [(lit "access_token", JInt (-12))])))]))) =
  [token_post demo_bytes;
   mkRequest GET (lit "https://api.spotify.com/v1/search?q=x&type=track")
     None [(lit "Authorization", lit "Bearer -12")]].
Proof. reflexivity. Qed.

(** A body that is JSON and no object has no [get]. *)
Example demo_array_body :
  fst (_generate_auth_token play (demo [Ok (mkResponse 200 (Ok (JArr [])))])) =
  Raise AttributeError.
Proof. reflexivity. Qed.

(** ** The claims *)

Section Claims.

Context {World : Type}.
Variable send : Request -> World -> Result Response * World.
Variable py_repr : JSON -> str.

Lemma run_calls_self (cs : list Call) (m : Machine World) :
  self (run_calls send py_repr cs m) = self m.
Proof.
  revert m. induction cs as [|c cs IH]; intros m; [reflexivity|].
  unfold run_calls in *. cbn [fold_left]. rewrite IH.
  destruct c as [|term kind]; cbn [run_call].
  - apply token_self.
  - apply find_self.
Qed.

(** C1, amended.  When the identifier and the secret are strings of
    Unicode scalar values (no lone surrogate), [_generate_auth_token]
    issues exactly one request: a POST to the token endpoint with form
    payload grant_type=client_credentials and the header Authorization:
    "Basic " followed by the base64 text of the UTF-8 octets of
    identifier ":" secret.  Those octets decode to that very string, and
    the base64 text reads back to those octets. *)
Theorem token_issues_one_basic_post (m : Machine World) :
  encodable (app_id (self m)) = true ->
  encodable (app_secret (self m)) = true ->
  exists bs,
    encode (app_id (self m) ++ lit ":" ++ app_secret (self m)) = Ok bs /\
    decode bs = Ok (app_id (self m) ++ lit ":" ++ app_secret (self m)) /\
    b64decode (b64encode bs) = Some bs /\
    sent (snd (_generate_auth_token send m)) =
      sent m ++
      [mkRequest POST (lit "https://accounts.spotify.com/api/token")
         (Some [(lit "grant_type", lit "client_credentials")])
         [(lit "Authorization",
           lit "Basic " ++ ascii_text (b64encode bs))]].
Proof.
  intros Hid Hsecret.
  destruct (encode_total (credentials (self m))) as [bs Hbs].
  { unfold credentials. rewrite !encodable_app, Hid, Hsecret. reflexivity. }
  exists bs. repeat split.
  - exact Hbs.
  - apply decode_encode, Hbs.
  - apply b64decode_b64encode.
  - rewrite (token_run send m bs Hbs). reflexivity.
Qed.

(** C2.  For every term and kind, a [find] whose token operation
    returned [tok] issues next a GET whose URL is the base API URL,
    "search?q=", the term, "&type=" and the kind, joined as they are,
    with the header Authorization: "Bearer " followed by the rendering
    of [tok]; a token that is a string is rendered as itself. *)
Theorem find_issues_literal_get (term kind : str) (m m1 : Machine World)
    (tok : JSON) :
  _generate_auth_token send m = (Ok tok, m1) ->
  sent (snd (find send py_repr term (Some kind) m)) =
    sent m1 ++
    [mkRequest GET
       (BASE_API_URL ++ lit "search?q=" ++ term ++ lit "&type=" ++ kind)
       None
       [(lit "Authorization", lit "Bearer " ++ py_str py_repr tok)]]
  /\ (forall T, tok = JStr T -> py_str py_repr tok = T).
Proof.
  intros Ht. split.
  - rewrite (find_run send py_repr term (Some kind) m m1 tok Ht).
    reflexivity.
  - now intros T ->.
Qed.

(** C3, amended.  When the token endpoint answers the token request with
    a JSON object that has no "access_token" field, [_generate_auth_token]
    returns [None] and does not raise, and a [find] in which this
    happens goes on to issue its GET. *)
Theorem token_absent_field_is_none (term : str) (kind : option str)
    (m : Machine World) (bs : list byte) (resp : Response) (w : World)
    (fields : list (list N * JSON)) :
  encode (credentials (self m)) = Ok bs ->
  send (token_post bs) (net m) = (Ok resp, w) ->
  json resp = Ok (JObj fields) ->
  dict_lookup (lit "access_token") fields = None ->
  fst (_generate_auth_token send m) = Ok JNull /\
  sent (snd (find send py_repr term kind m)) =
    sent m ++
    [token_post bs; search_get (lit "None") term (kind_or_default kind)].
Proof.
  intros Hbs Hsend Hjson Hnone.
  assert (Ht : _generate_auth_token send m =
               (Ok JNull, mkMachine (self m) w (sent m ++ [token_post bs]))).
  { rewrite (token_run send m bs Hbs), Hsend. cbn [fst snd].
    unfold token_of. cbn [result_bind]. rewrite Hjson. cbn [result_bind].
    unfold py_get. now rewrite Hnone. }
  split; [now rewrite Ht|].
  rewrite (find_run send py_repr term kind _ _ _ Ht).
  cbn [snd sent]. now rewrite <- app_assoc.
Qed.

(** C4.  When the token endpoint answers the token request with the
    JSON object {"access_token": T}, [_generate_auth_token] returns the
    string T. *)
Theorem token_returned_verbatim (m : Machine World) (bs : list byte)
    (resp : Response) (w : World) (T : list N) :
  encode (credentials (self m)) = Ok bs ->
  send (token_post bs) (net m) = (Ok resp, w) ->
  json resp = Ok (JObj [(lit "access_token", JStr T)]) ->
  fst (_generate_auth_token send m) = Ok (JStr T).
Proof.
  intros Hbs Hsend Hjson.
  rewrite (token_run send m bs Hbs), Hsend. cbn [fst].
  unfold token_of. cbn [result_bind]. rewrite Hjson. reflexivity.
Qed.

(** C5.  Whatever JSON value J the response to the search GET parses
    to, [find] returns J itself. *)
Theorem find_returns_body (term : str) (kind : option str)
    (m m1 : Machine World) (tok : JSON) (resp : Response) (w : World)
    (J : JSON) :
  _generate_auth_token send m = (Ok tok, m1) ->
  send (search_get (py_str py_repr tok) term (kind_or_default kind)) (net m1)
    = (Ok resp, w) ->
  json resp = Ok J ->
  fst (find send py_repr term kind m) = Ok J.
Proof.
  intros Ht Hsend Hjson.
  rewrite (find_run send py_repr term kind m m1 tok Ht).
  cbv zeta. rewrite Hsend. cbn [fst result_bind]. exact Hjson.
Qed.


(** C7, amended.  A [find] whose token operation returns issues exactly
    two requests, the token POST and then the search GET; a second such
    [find] right after it issues a token POST and a search GET of its
    own, and its GET carries the token of its own POST. *)
Theorem find_two_requests_per_call (term1 term2 : str)
    (kind1 kind2 : option str) (m m1 : Machine World) (tok1 : JSON) :
  _generate_auth_token send m = (Ok tok1, m1) ->
  exists bs,
    let get1 := search_get (py_str py_repr tok1) term1
                  (kind_or_default kind1) in
    let m2 := snd (find send py_repr term1 kind1 m) in
    sent m2 = sent m ++ [token_post bs; get1] /\
    forall (tok2 : JSON) (m3 : Machine World),
      _generate_auth_token send m2 = (Ok tok2, m3) ->
      sent (snd (find send py_repr term2 kind2 m2)) =
        sent m ++
        [token_post bs; get1; token_post bs;
         search_get (py_str py_repr tok2) term2 (kind_or_default kind2)].
Proof.
  intros Ht1.
  destruct (token_ok_inv send m m1 tok1 Ht1) as (bs & Hbs & _ & Hm1).
  exists bs. cbv zeta.
  assert (H1 : sent (snd (find send py_repr term1 kind1 m)) =
               sent m ++ [token_post bs;
                          search_get (py_str py_repr tok1) term1
                            (kind_or_default kind1)]).
  { rewrite (find_run send py_repr term1 kind1 m m1 tok1 Ht1).
    cbn [snd sent]. rewrite Hm1. cbn [sent].
    now rewrite <- app_assoc. }
  split; [exact H1|].
  intros tok2 m3 Ht2.
  destruct (token_ok_inv send _ m3 tok2 Ht2) as (bs2 & Hbs2 & _ & Hm3).
  rewrite find_self, Hbs in Hbs2. injection Hbs2 as <-.
  rewrite (find_run send py_repr term2 kind2 _ m3 tok2 Ht2).
  cbn [snd sent]. rewrite Hm3. cbn [sent]. rewrite H1.
  now rewrite <- !app_assoc.
Qed.

(** C8.  For every identifier and secret, construction returns, stores
    the two strings as they are, issues no request and leaves the
    network alone. *)
Theorem init_stores_verbatim (id secret : str) (m : Machine World) :
  fst (__init__ id secret m) = Ok tt /\
  app_id (self (snd (__init__ id secret m))) = id /\
  app_secret (self (snd (__init__ id secret m))) = secret /\
  sent (snd (__init__ id secret m)) = sent m /\
  net (snd (__init__ id secret m)) = net m.
Proof. repeat split. Qed.

(** C9.  After construction with an identifier and a secret, any
    sequence of token and search calls, over any network, leaves the
    stored identifier and secret what they were at construction. *)
Theorem credentials_never_change (id secret : str) (w : World)
    (calls : list Call) :
  app_id (self (run_calls send py_repr calls (construct id secret w))) = id
  /\
  app_secret (self (run_calls send py_repr calls (construct id secret w)))
    = secret.
Proof. rewrite run_calls_self. split; reflexivity. Qed.

(** C10.  When the token operation returns [None], the search GET is
    issued with the header Authorization: "Bearer None". *)
Theorem find_bearer_none (term : str) (kind : option str)
    (m m1 : Machine World) :
  _generate_auth_token send m = (Ok JNull, m1) ->
  exists get,
    sent (snd (find send py_repr term kind m)) = sent m1 ++ [get] /\
    method get = GET /\
    headers get = [(lit "Authorization", lit "Bearer None")].
Proof.
  intros Ht. eexists.
  rewrite (find_run send py_repr term kind m m1 JNull Ht).
  cbn [snd sent]. repeat split.
Qed.

End Claims.

(** ** The claims at concrete runs *)

Lemma token_issues_one_basic_post_witness :
  encodable (app_id (self (demo script_ok))) = true /\
  encodable (app_secret (self (demo script_ok))) = true /\
  exists bs,
    encode (app_id (self (demo script_ok)) ++ lit ":"
            ++ app_secret (self (demo script_ok))) = Ok bs /\
    decode bs = Ok (app_id (self (demo script_ok)) ++ lit ":"
                    ++ app_secret (self (demo script_ok))) /\
    b64decode (b64encode bs) = Some bs /\
    sent (snd (_generate_auth_token play (demo script_ok))) =
      sent (demo script_ok) ++
      [mkRequest POST (lit "https://accounts.spotify.com/api/token")
         (Some [(lit "grant_type", lit "client_credentials")])
         [(lit "Authorization", lit "Basic " ++ ascii_text (b64encode bs))]].
Proof.
  split; [reflexivity|]. split; [reflexivity|].
  exact (token_issues_one_basic_post play (demo script_ok) eq_refl eq_refl).
Defined.

(** C1 as stated fails: with a lone surrogate in the identifier the token
    operation raises while encoding and issues no POST at all. *)
Lemma token_lone_surrogate_no_post :
  wf_str (app_id (self lone_surrogate)) = true /\
  sent lone_surrogate = [] /\
  fst (_generate_auth_token play lone_surrogate) = Raise UnicodeEncodeError /\
  sent (snd (_generate_auth_token play lone_surrogate)) = [].
Proof. repeat split. Qed.

Lemma find_issues_literal_get_witness :
  _generate_auth_token play (demo script_ok) =
    (Ok (JStr (lit "T")), demo_after_post [Ok search_ok]) /\
  sent (snd (find play repr_elided (lit "Imagine Dragons")
               (Some (lit "artist")) (demo script_ok))) =
    sent (demo_after_post [Ok search_ok]) ++
    [mkRequest GET
       (BASE_API_URL ++ lit "search?q=" ++ lit "Imagine Dragons"
        ++ lit "&type=" ++ lit "artist")
       None
       [(lit "Authorization",
         lit "Bearer " ++ py_str repr_elided (JStr (lit "T")))]]
  /\ (forall T, JStr (lit "T") = JStr T -> py_str repr_elided (JStr (lit "T")) = T).
Proof.
  split; [reflexivity|].
  exact (find_issues_literal_get play repr_elided (lit "Imagine Dragons")
           (lit "artist") (demo script_ok) (demo_after_post [Ok search_ok])
           (JStr (lit "T")) eq_refl).
Defined.

Lemma token_absent_field_is_none_witness :
  encode (credentials (self (demo script_rejected))) = Ok demo_bytes /\
  play (token_post demo_bytes) (net (demo script_rejected)) =
    (Ok invalid_client, [Ok unauthorized]) /\
  json invalid_client =
    Ok (JObj [(lit "error", JStr (lit "invalid_client"))]) /\
  dict_lookup (lit "access_token")
    [(lit "error", JStr (lit "invalid_client"))] = None /\
  fst (_generate_auth_token play (demo script_rejected)) = Ok JNull /\
  sent (snd (find play repr_elided (lit "Imagine Dragons")
               (Some (lit "artist")) (demo script_rejected))) =
    sent (demo script_rejected) ++
    [token_post demo_bytes;
     search_get (lit "None") (lit "Imagine Dragons")
       (kind_or_default (Some (lit "artist")))].
Proof.
  do 4 (split; [reflexivity|]).
  exact (token_absent_field_is_none play repr_elided (lit "Imagine Dragons")
           (Some (lit "artist")) (demo script_rejected) demo_bytes
           invalid_client [Ok unauthorized]
           [(lit "error", JStr (lit "invalid_client"))]
           eq_refl eq_refl eq_refl eq_refl).
Defined.

Lemma token_returned_verbatim_witness :
  encode (credentials (self (demo script_ok))) = Ok demo_bytes /\
  play (token_post demo_bytes) (net (demo script_ok)) =
    (Ok (token_body (lit "T")), [Ok search_ok]) /\
  json (token_body (lit "T")) =
    Ok (JObj [(lit "access_token", JStr (lit "T"))]) /\
  fst (_generate_auth_token play (demo script_ok)) = Ok (JStr (lit "T")).
Proof.
  do 3 (split; [reflexivity|]).
  exact (token_returned_verbatim play (demo script_ok) demo_bytes
           (token_body (lit "T")) [Ok search_ok] (lit "T")
           eq_refl eq_refl eq_refl).
Defined.

Lemma find_returns_body_witness :
  _generate_auth_token play (demo script_ok) =
    (Ok (JStr (lit "T")), demo_after_post [Ok search_ok]) /\
  play (search_get (py_str repr_elided (JStr (lit "T")))
          (lit "Imagine Dragons") (kind_or_default (Some (lit "artist"))))
       (net (demo_after_post [Ok search_ok])) = (Ok search_ok, []) /\
  json search_ok = Ok artists_page /\
  fst (find play repr_elided (lit "Imagine Dragons") (Some (lit "artist"))
         (demo script_ok)) = Ok artists_page.
Proof.
  do 3 (split; [reflexivity|]).
  exact (find_returns_body play repr_elided (lit "Imagine Dragons")
           (Some (lit "artist")) (demo script_ok)
           (demo_after_post [Ok search_ok]) (JStr (lit "T")) search_ok []
           artists_page eq_refl eq_refl eq_refl).
Defined.


Lemma find_two_requests_per_call_witness :
  _generate_auth_token play (demo script_twice) =
    (Ok (JStr (lit "T1")),
     demo_after_post [Ok search_ok; Ok (token_body (lit "T2")); Ok search_ok])
  /\
  exists bs,
    sent (snd (find play repr_elided (lit "Believer") None
                 (demo script_twice))) =
      sent (demo script_twice) ++
      [token_post bs; search_get (lit "T1") (lit "Believer") (lit "track")] /\
    sent (snd (find play repr_elided (lit "Imagine Dragons")
                 (Some (lit "artist"))
                 (snd (find play repr_elided (lit "Believer") None
                         (demo script_twice))))) =
      sent (demo script_twice) ++
      [token_post bs; search_get (lit "T1") (lit "Believer") (lit "track");
       token_post bs;
       search_get (lit "T2") (lit "Imagine Dragons") (lit "artist")].
Proof.
  split; [reflexivity|].
  destruct (find_two_requests_per_call play repr_elided (lit "Believer")
              (lit "Imagine Dragons") None (Some (lit "artist"))
              (demo script_twice)
              (demo_after_post
                 [Ok search_ok; Ok (token_body (lit "T2")); Ok search_ok])
              (JStr (lit "T1")) eq_refl) as [bs [H1 H2]].
  exists bs. split; [exact H1|].
  exact (H2 (JStr (lit "T2"))
           (mkMachine (mkConnector (lit "YOUR_APP_ID") (lit "YOUR_APP_SECRET"))
              [Ok search_ok]
              [token_post demo_bytes;
               search_get (lit "T1") (lit "Believer") (lit "track");
               token_post demo_bytes])
           eq_refl).
Defined.

(** C7 as stated fails: when the transport fails on the token POST, the
    search call raises after that one request and issues no GET. *)
Lemma find_transport_failure_one_request :
  fst (find play repr_elided (lit "Imagine Dragons") (Some (lit "artist"))
         (demo [])) = Raise (CollaboratorError "ConnectionError") /\
  sent (demo []) = [] /\
  sent (snd (find play repr_elided (lit "Imagine Dragons")
               (Some (lit "artist")) (demo []))) = [token_post demo_bytes].
Proof. repeat split. Qed.

Lemma find_bearer_none_witness :
  _generate_auth_token play (demo script_rejected) =
    (Ok JNull, demo_after_post [Ok unauthorized]) /\
  exists get,
    sent (snd (find play repr_elided (lit "Imagine Dragons")
                 (Some (lit "artist")) (demo script_rejected))) =
      sent (demo_after_post [Ok unauthorized]) ++ [get] /\
    method get = GET /\
    headers get = [(lit "Authorization", lit "Bearer None")].
Proof.
  split; [reflexivity|].
  exact (find_bearer_none play repr_elided (lit "Imagine Dragons")
           (Some (lit "artist")) (demo script_rejected)
           (demo_after_post [Ok unauthorized]) eq_refl).
Defined.

(** ** Further facts about the codecs *)

Lemma encode_char_not_scalar (c : N) :
  is_scalar c = false -> encode_char c = Raise UnicodeEncodeError.
Proof.
  unfold encode_char, is_scalar, is_codepoint, is_surrogate.
  destruct (N.ltb_spec c 0x110000) as [Hc|Hc]; cbn [andb negb].
  - destruct (N.leb_spec 0xD800 c) as [H1|H1];
      destruct (N.leb_spec c 0xDFFF) as [H2|H2]; cbn [andb negb];
      try discriminate.
    intros _. now decide_tests.
  - intros _. now decide_tests.
Qed.

Lemma encode_unencodable (s : list N) :
  encodable s = false -> encode s = Raise UnicodeEncodeError.
Proof.
  induction s as [|c s IH]; cbn [encodable forallb encode]; [discriminate|].
  destruct (is_scalar c) eqn:Hc; cbn [andb]; intros Hs.
  - destruct (encode_char_scalar c Hc) as [cs ->]. cbn [result_bind].
    fold (encodable s) in Hs. now rewrite (IH Hs).
  - now rewrite (encode_char_not_scalar c Hc).
Qed.

Lemma b64encode_length (bs : list byte) :
  List.length (b64encode bs) = (4 * ((List.length bs + 2) / 3))%nat.
Proof.
  induction bs as [|a|a b|a b c r IH] using bytes_ind3;
    cbn [b64encode List.length]; try reflexivity.
  rewrite IH.
  replace (S (S (S (List.length r))) + 2)%nat
    with (List.length r + 2 + 1 * 3)%nat by lia.
  rewrite Nat.div_add by discriminate. lia.
Qed.

Lemma ascii_text_inj (xs ys : list byte) :
  ascii_text xs = ascii_text ys -> xs = ys.
Proof.
  unfold ascii_text. revert ys.
  induction xs as [|x xs IH]; intros [|y ys]; cbn [map]; try discriminate.
  - reflexivity.
  - intros [= Hxy Hrest]. f_equal; [|now apply IH].
    now rewrite <- (octet_to_N x), Hxy, octet_to_N.
Qed.

Lemma b64encode_inj (xs ys : list byte) :
  b64encode xs = b64encode ys -> xs = ys.
Proof.
  intros H. apply (f_equal b64decode) in H.
  rewrite !b64decode_b64encode in H. now injection H.
Qed.

Lemma exchanges_app (post : Request) (l1 l2 : list Request) :
  Exchanges post l1 -> Exchanges post l2 -> Exchanges post (l1 ++ l2).
Proof.
  intros H1 H2. induction H1 as [|l _ IH|g l Hg _ IH]; cbn [app].
  - exact H2.
  - now apply exchanges_post.
  - now apply exchanges_pair.
Qed.

(** ** Failure paths, bounds and ambiguities of the two operations *)

Section Extras.

Context {World : Type}.
Variable send : Request -> World -> Result Response * World.
Variable py_repr : JSON -> list N.

(** What one call adds to the log, with credentials that encode. *)
Lemma run_call_block (c : Call) (m : Machine World) (bs : list byte) :
  encode (credentials (self m)) = Ok bs ->
  exists block,
    sent (run_call send py_repr c m) = sent m ++ block /\
    Exchanges (token_post bs) block /\
    (List.length block <= 2)%nat.
Proof.
  intros Hbs. destruct c as [|term kind]; cbn [run_call].
  - exists [token_post bs]. rewrite (token_run send m bs Hbs).
    repeat split; [repeat constructor | cbn; lia].
  - destruct (_generate_auth_token send m) as [[tok|e] m1] eqn:Ht;
      pose proof Ht as Ht'; rewrite (token_run send m bs Hbs) in Ht';
      injection Ht' as _ Hm1.
    + rewrite (find_run send py_repr term kind m m1 tok Ht).
      cbn [snd sent]. rewrite <- Hm1. cbn [sent]. rewrite <- app_assoc.
      eexists. split; [reflexivity|]. split; [|cbn; lia].
      apply exchanges_pair; [reflexivity | constructor].
    + rewrite (find_raise send py_repr term kind m m1 e Ht).
      cbn [snd]. rewrite <- Hm1. cbn [sent].
      exists [token_post bs]. repeat split; [repeat constructor | cbn; lia].
Qed.

(** X1.  Credentials that strict UTF-8 cannot encode make both operations
    raise [UnicodeEncodeError] with the machine as it was: nothing is sent. *)
Theorem unencodable_credentials_raise_unsent (term : list N)
    (kind : option (list N)) (m : Machine World) :
  encodable (credentials (self m)) = false ->
  _generate_auth_token send m = (Raise UnicodeEncodeError, m) /\
  find send py_repr term kind m = (Raise UnicodeEncodeError, m).
Proof.
  intros H. apply encode_unencodable in H.
  pose proof (token_raise send m _ H) as Ht. split; [exact Ht|].
  exact (find_raise send py_repr term kind m m _ Ht).
Qed.

(** X2.  When the transport raises on the token POST, both operations
    raise that same exception; [find] stops there, with the POST as the
    only request of the call. *)
Theorem transport_failure_stops_after_post (term : list N)
    (kind : option (list N)) (m : Machine World) (bs : list byte)
    (e : exn) (w : World) :
  encode (credentials (self m)) = Ok bs ->
  send (token_post bs) (net m) = (Raise e, w) ->
  _generate_auth_token send m =
    (Raise e, mkMachine (self m) w (sent m ++ [token_post bs])) /\
  find send py_repr term kind m =
    (Raise e, mkMachine (self m) w (sent m ++ [token_post bs])).
Proof.
  intros Hbs Hsend.
  assert (Ht : _generate_auth_token send m =
               (Raise e, mkMachine (self m) w (sent m ++ [token_post bs])))
    by (rewrite (token_run send m bs Hbs), Hsend; reflexivity).
  split; [exact Ht|]. exact (find_raise send py_repr term kind m _ _ Ht).
Qed.

(** X3.  When the body of the token response is not JSON, what
    [Response.json()] raises comes out of both operations, and [find]
    issues no GET. *)
Theorem unparsable_token_body_raises (term : list N)
    (kind : option (list N)) (m : Machine World) (bs : list byte)
    (resp : Response) (e : exn) (w : World) :
  encode (credentials (self m)) = Ok bs ->
  send (token_post bs) (net m) = (Ok resp, w) ->
  json resp = Raise e ->
  _generate_auth_token send m =
    (Raise e, mkMachine (self m) w (sent m ++ [token_post bs])) /\
  find send py_repr term kind m =
    (Raise e, mkMachine (self m) w (sent m ++ [token_post bs])).
Proof.
  intros Hbs Hsend Hjson.
  assert (Ht : _generate_auth_token send m =
               (Raise e, mkMachine (self m) w (sent m ++ [token_post bs]))).
  { rewrite (token_run send m bs Hbs), Hsend. cbn [fst snd].
    unfold token_of. cbn [result_bind]. now rewrite Hjson. }
  split; [exact Ht|]. exact (find_raise send py_repr term kind m _ _ Ht).
Qed.

(** X4.  When the token response is JSON and not an object (a list, a
    string, a number, null), the lookup of "access_token" raises
    [AttributeError], and [find] issues no GET. *)
Theorem non_object_token_body_raises (term : list N)
    (kind : option (list N)) (m : Machine World) (bs : list byte)
    (resp : Response) (v : JSON) (w : World) :
  encode (credentials (self m)) = Ok bs ->
  send (token_post bs) (net m) = (Ok resp, w) ->
  json resp = Ok v ->
  is_object v = false ->
  _generate_auth_token send m =
    (Raise AttributeError,
     mkMachine (self m) w (sent m ++ [token_post bs])) /\
  find send py_repr term kind m =
    (Raise AttributeError,
     mkMachine (self m) w (sent m ++ [token_post bs])).
Proof.
  intros Hbs Hsend Hjson Hv.
  assert (Ht : _generate_auth_token send m =
               (Raise AttributeError,
                mkMachine (self m) w (sent m ++ [token_post bs]))).
  { rewrite (token_run send m bs Hbs), Hsend. cbn [fst snd].
    unfold token_of. cbn [result_bind]. rewrite Hjson. cbn [result_bind].
    destruct v; try reflexivity; discriminate. }
  split; [exact Ht|]. exact (find_raise send py_repr term kind m _ _ Ht).
Qed.

(** X5.  Whatever value the token response has under "access_token" (a
    number, a list, null as well as a string), the token operation
    returns that value as it is. *)
Theorem token_field_returned_untyped (m : Machine World) (bs : list byte)
    (resp : Response) (w : World) (fields : list (list N * JSON))
    (v : JSON) :
  encode (credentials (self m)) = Ok bs ->
  send (token_post bs) (net m) = (Ok resp, w) ->
  json resp = Ok (JObj fields) ->
  dict_lookup (lit "access_token") fields = Some v ->
  fst (_generate_auth_token send m) = Ok v.
Proof.
  intros Hbs Hsend Hjson Hv.
  rewrite (token_run send m bs Hbs), Hsend. cbn [fst].
  unfold token_of. cbn [result_bind]. rewrite Hjson. cbn [result_bind].
  unfold py_get. now rewrite Hv.
Qed.

(** X6.  When the token operation returned and the search GET fails, by
    the transport or by a body that is not JSON, [find] raises that
    exception, after both requests of the call were issued. *)
Theorem search_failure_raises_after_get (term : list N)
    (kind : option (list N)) (m m1 : Machine World) (tok : JSON) (e : exn) :
  _generate_auth_token send m = (Ok tok, m1) ->
  (fst (send (search_get (py_str py_repr tok) term (kind_or_default kind))
             (net m1)) = Raise e
   \/ exists resp,
        fst (send (search_get (py_str py_repr tok) term
                     (kind_or_default kind)) (net m1)) = Ok resp /\
        json resp = Raise e) ->
  fst (find send py_repr term kind m) = Raise e /\
  sent (snd (find send py_repr term kind m)) =
    sent m1 ++ [search_get (py_str py_repr tok) term (kind_or_default kind)].
Proof.
  intros Ht Hfail.
  rewrite (find_run send py_repr term kind m m1 tok Ht). cbv zeta.
  cbn [fst snd sent]. split; [|reflexivity].
  destruct Hfail as [-> | (resp & -> & Hjson)]; [reflexivity | exact Hjson].
Qed.

(** X7.  The term and the kind are spliced into the query unescaped: a
    term that carries "&type=" and the kind that carries it instead give
    the same run of [find], request for request. *)
Theorem find_query_splice (t x k : list N) (m : Machine World) :
  find send py_repr (t ++ lit "&type=" ++ x) (Some k) m =
  find send py_repr t (Some (x ++ lit "&type=" ++ k)) m.
Proof.
  destruct (_generate_auth_token send m) as [[tok|e] m1] eqn:Ht.
  - rewrite !(find_run send py_repr _ _ m m1 tok Ht). cbv zeta.
    cbn [kind_or_default]. unfold search_get.
    now rewrite <- !app_assoc.
  - now rewrite !(find_raise send py_repr _ _ m m1 e Ht).
Qed.

(** X8.  The identifier and the secret are joined by a colon unescaped:
    a colon inside the identifier and the same colon inside the secret
    give the same token request, the same result and the same network. *)
Theorem colon_in_credentials_ambiguous (a b c : list N) (w : World)
    (log : list Request) :
  fst (_generate_auth_token send
         (mkMachine (mkConnector (a ++ lit ":" ++ b) c) w log)) =
  fst (_generate_auth_token send
         (mkMachine (mkConnector a (b ++ lit ":" ++ c)) w log)) /\
  sent (snd (_generate_auth_token send
               (mkMachine (mkConnector (a ++ lit ":" ++ b) c) w log))) =
  sent (snd (_generate_auth_token send
               (mkMachine (mkConnector a (b ++ lit ":" ++ c)) w log))) /\
  net (snd (_generate_auth_token send
              (mkMachine (mkConnector (a ++ lit ":" ++ b) c) w log))) =
  net (snd (_generate_auth_token send
              (mkMachine (mkConnector a (b ++ lit ":" ++ c)) w log))).
Proof.
  set (m1 := mkMachine (mkConnector (a ++ lit ":" ++ b) c) w log).
  set (m2 := mkMachine (mkConnector a (b ++ lit ":" ++ c)) w log).
  assert (E : credentials (self m1) = credentials (self m2)).
  { unfold credentials, m1, m2. cbn [self app_id app_secret].
    now rewrite <- !app_assoc. }
  destruct (encode (credentials (self m1))) as [bs|e] eqn:H1;
    pose proof H1 as H2; rewrite E in H2.
  - rewrite (token_run send m1 bs H1), (token_run send m2 bs H2).
    repeat split.
  - rewrite (token_raise send m1 e H1), (token_raise send m2 e H2).
    repeat split.
Qed.

(** What the token operation adds to the log, when it adds one request. *)
Lemma token_added_inv (m : Machine World) (r : Request) :
  sent (snd (_generate_auth_token send m)) = sent m ++ [r] ->
  exists bs, encode (credentials (self m)) = Ok bs /\ r = token_post bs.
Proof.
  destruct (encode (credentials (self m))) as [bs|e] eqn:Hbs.
  - rewrite (token_run send m bs Hbs). cbn [snd sent]. intros H.
    apply app_inv_head in H. injection H as <-. now exists bs.
  - rewrite (token_raise send m e Hbs). cbn [snd]. intros H.
    apply (f_equal (@List.length Request)) in H.
    rewrite length_app in H. cbn in H. lia.
Qed.

(** X9.  The request the token operation issues carries the joined
    credentials without loss: when the token operations of two
    connectors each add one request to the log and the two requests have
    the same headers, the two strings identifier ":" secret are equal. *)
Theorem basic_header_determines_credentials (m1 m2 : Machine World)
    (r1 r2 : Request) :
  sent (snd (_generate_auth_token send m1)) = sent m1 ++ [r1] ->
  sent (snd (_generate_auth_token send m2)) = sent m2 ++ [r2] ->
  headers r1 = headers r2 ->
  credentials (self m1) = credentials (self m2).
Proof.
  intros H1 H2 Hh.
  destruct (token_added_inv m1 r1 H1) as (bs1 & E1 & ->).
  destruct (token_added_inv m2 r2 H2) as (bs2 & E2 & ->).
  unfold token_post in Hh. cbn [headers] in Hh.
  injection Hh as Hh.
  apply ascii_text_inj, b64encode_inj in Hh. subst bs2.
  apply decode_encode in E1. apply decode_encode in E2.
  rewrite E1 in E2. now injection E2.
Qed.

(** X10.  Whatever octets the credentials encode to, characters outside
    ASCII included, the request the token operation adds to the log is a
    POST whose header dictionary is Authorization alone, with a value
    that is ASCII throughout and 6 characters followed by 4 for every 3
    octets begun. *)
Theorem basic_header_is_ascii (m : Machine World) (bs : list byte) :
  encode (credentials (self m)) = Ok bs ->
  exists v,
    sent (snd (_generate_auth_token send m)) =
      sent m ++
      [mkRequest POST BASE_TOKEN_URL
         (Some [(lit "grant_type", lit "client_credentials")])
         [(lit "Authorization", v)]] /\
    Forall (fun ch => ch < 128) v /\
    List.length v = (6 + 4 * ((List.length bs + 2) / 3))%nat.
Proof.
  intros Hbs. rewrite (token_run send m bs Hbs). cbn [snd sent].
  eexists. split; [reflexivity|]. split.
  - apply Forall_app. split.
    + repeat constructor.
    + unfold ascii_text. apply Forall_map.
      exact (b64encode_ascii bs).
  - rewrite length_app. unfold ascii_text.
    rewrite length_map, b64encode_length. reflexivity.
Qed.

(** X11.  Over any sequence of calls on a connector whose credentials
    encode, the log only grows, and what is added is a run of token
    POSTs, all the same, each alone or followed at once by one GET: no
    GET goes out without a token POST of its own right before it.  At
    most two requests are added per call. *)
Theorem session_log_is_exchanges (cs : list Call) (m : Machine World)
    (bs : list byte) :
  encode (credentials (self m)) = Ok bs ->
  exists added,
    sent (run_calls send py_repr cs m) = sent m ++ added /\
    Exchanges (token_post bs) added /\
    (List.length added <= 2 * List.length cs)%nat.
Proof.
  revert m. induction cs as [|c cs IH]; intros m Hbs.
  - exists []. rewrite app_nil_r. repeat split; [constructor | cbn; lia].
  - destruct (run_call_block c m bs Hbs) as (block & Hb & Eb & Lb).
    assert (Hself : self (run_call send py_repr c m) = self m).
    { destruct c; cbn [run_call]; [apply token_self | apply find_self]. }
    destruct (IH (run_call send py_repr c m)) as (rest & Hr & Er & Lr).
    { now rewrite Hself. }
    exists (block ++ rest). unfold run_calls in *. cbn [fold_left].
    rewrite Hr, Hb, <- app_assoc. repeat split.
    + now apply exchanges_app.
    + rewrite length_app. cbn [List.length]. lia.
Qed.

(** X12.  Over any sequence of calls on a connector whose credentials do
    not encode, nothing at all happens to the machine: no request is
    ever sent. *)
Theorem session_unencodable_is_inert (cs : list Call) (m : Machine World) :
  encodable (credentials (self m)) = false ->
  run_calls send py_repr cs m = m.
Proof.
  intros H. apply encode_unencodable in H.
  pose proof (token_raise send m _ H) as Ht.
  induction cs as [|c cs IH]; [reflexivity|].
  unfold run_calls in *. cbn [fold_left].
  replace (run_call send py_repr c m) with m; [exact IH|].
  destruct c as [|term kind]; cbn [run_call].
  - now rewrite Ht.
  - now rewrite (find_raise send py_repr term kind m m _ Ht).
Qed.

(** X13.  One [find], whatever the credentials and the network: the log
    grows by nothing, by the token POST alone, or by the token POST and
    then the search GET for the term and kind of the call. *)
Theorem find_sends_post_then_get_at_most (term : list N)
    (kind : option (list N)) (m : Machine World) :
  exists added,
    sent (snd (find send py_repr term kind m)) = sent m ++ added /\
    (added = []
     \/ (exists bs, added = [token_post bs])
     \/ (exists bs tok,
           added = [token_post bs;
                    search_get (py_str py_repr tok) term
                      (kind_or_default kind)])).
Proof.
  destruct (encode (credentials (self m))) as [bs|e] eqn:Hbs.
  - destruct (_generate_auth_token send m) as [[tok|e] m1] eqn:Ht;
      pose proof Ht as Ht'; rewrite (token_run send m bs Hbs) in Ht';
      injection Ht' as _ Hm1.
    + rewrite (find_run send py_repr term kind m m1 tok Ht).
      cbn [snd sent]. rewrite <- Hm1. cbn [sent]. rewrite <- app_assoc.
      eexists. split; [reflexivity|]. right. right. now exists bs, tok.
    + rewrite (find_raise send py_repr term kind m m1 e Ht).
      cbn [snd]. rewrite <- Hm1. cbn [sent].
      eexists. split; [reflexivity|]. right. left. now exists bs.
  - rewrite (find_raise send py_repr term kind m m e
               (token_raise send m e Hbs)).
    exists []. rewrite app_nil_r. split; [reflexivity | now left].
Qed.

(** X14.  The demonstration, on any network and any console: the first
    request is the token POST with the placeholder credentials as they
    are written in the file, at most one request follows, and [print] is
    reached exactly when [find] returned, with the value it returned. *)
Theorem main_posts_placeholders_then_prints {Console : Type}
    (print : JSON -> Console -> Result unit * Console)
    (w : World) (c : Console) :
  headers (token_post demo_bytes) =
    [(lit "Authorization",
      lit "Basic WU9VUl9BUFBfSUQ6WU9VUl9BUFBfU0VDUkVU")] /\
  (exists rest,
     sent (fst (snd (main send py_repr print w c))) =
       token_post demo_bytes :: rest /\
     (List.length rest <= 1)%nat) /\
  ((exists e,
      fst (find send py_repr (lit "Imagine Dragons") (Some (lit "artist"))
             (construct (lit "YOUR_APP_ID") (lit "YOUR_APP_SECRET") w))
        = Raise e /\
      fst (main send py_repr print w c) = Raise e /\
      snd (snd (main send py_repr print w c)) = c)
   \/
   (exists J,
      fst (find send py_repr (lit "Imagine Dragons") (Some (lit "artist"))
             (construct (lit "YOUR_APP_ID") (lit "YOUR_APP_SECRET") w))
        = Ok J /\
      fst (main send py_repr print w c) = fst (print J c) /\
      snd (snd (main send py_repr print w c)) = snd (print J c))).
Proof.
  split; [reflexivity|].
  set (m0 := construct (lit "YOUR_APP_ID") (lit "YOUR_APP_SECRET") w).
  assert (Hmain : main send py_repr print w c =
    match find send py_repr (lit "Imagine Dragons") (Some (lit "artist")) m0
    with
    | (Ok J, m) => (fst (print J c), (m, snd (print J c)))
    | (Raise e, m) => (Raise e, (m, c))
    end).
  { unfold main, bind. cbv zeta. fold m0.
    change (__init__ (lit "YOUR_APP_ID") (lit "YOUR_APP_SECRET")
              (mkMachine blank w [])) with (Ok tt, m0).
    cbv iota beta.
    destruct (find send py_repr _ _ m0) as [[J|e] m]; [|reflexivity].
    now destruct (print J c). }
  assert (Hbs : encode (credentials (self m0)) = Ok demo_bytes)
    by reflexivity.
  split.
  - assert (Hs : sent (fst (snd (main send py_repr print w c))) =
                 sent (snd (find send py_repr (lit "Imagine Dragons")
                              (Some (lit "artist")) m0))).
    { rewrite Hmain.
      now destruct (find send py_repr _ _ m0) as [[J|e] m]. }
    rewrite Hs.
    destruct (_generate_auth_token send m0) as [[tok|e] m1] eqn:Ht;
      pose proof Ht as Ht'; rewrite (token_run send m0 _ Hbs) in Ht';
      injection Ht' as _ Hm1.
    + rewrite (find_run send py_repr _ _ m0 m1 tok Ht).
      cbn [snd sent]. rewrite <- Hm1. cbn [sent].
      change (sent m0) with (@nil Request). cbn [app].
      eexists. split; [reflexivity | cbn; lia].
    + rewrite (find_raise send py_repr _ _ m0 m1 e Ht).
      cbn [snd]. rewrite <- Hm1. cbn [sent].
      change (sent m0) with (@nil Request). cbn [app].
      exists []. split; [reflexivity | cbn; lia].
  - rewrite Hmain.
    destruct (find send py_repr _ _ m0) as [[J|e] m]; cbn [fst snd].
    + right. now exists J.
    + left. now exists e.
Qed.

End Extras.

(** ** The further facts at concrete runs *)

Lemma unencodable_credentials_raise_unsent_witness :
  encodable (credentials (self lone_surrogate)) = false /\
  _generate_auth_token play lone_surrogate =
    (Raise UnicodeEncodeError, lone_surrogate) /\
  find play repr_elided (lit "Believer") None lone_surrogate =
    (Raise UnicodeEncodeError, lone_surrogate).
Proof.
  split; [reflexivity|].
  exact (unencodable_credentials_raise_unsent play repr_elided
           (lit "Believer") None lone_surrogate eq_refl).
Defined.

Lemma transport_failure_stops_after_post_witness :
  encode (credentials (self (demo script_down))) = Ok demo_bytes /\
  play (token_post demo_bytes) (net (demo script_down)) =
    (Raise (CollaboratorError "Timeout"), []) /\
  _generate_auth_token play (demo script_down) =
    (Raise (CollaboratorError "Timeout"),
     mkMachine (self (demo script_down)) []
       (sent (demo script_down) ++ [token_post demo_bytes])) /\
  find play repr_elided (lit "Believer") None (demo script_down) =
    (Raise (CollaboratorError "Timeout"),
     mkMachine (self (demo script_down)) []
       (sent (demo script_down) ++ [token_post demo_bytes])).
Proof.
  do 2 (split; [reflexivity|]).
  exact (transport_failure_stops_after_post play repr_elided
           (lit "Believer") None (demo script_down) demo_bytes
           (CollaboratorError "Timeout") [] eq_refl eq_refl).
Defined.

Lemma unparsable_token_body_raises_witness :
  encode (credentials (self (demo [Ok not_json; Ok search_ok]))) =
    Ok demo_bytes /\
  play (token_post demo_bytes) (net (demo [Ok not_json; Ok search_ok])) =
    (Ok not_json, [Ok search_ok]) /\
  json not_json = Raise (CollaboratorError "JSONDecodeError") /\
  _generate_auth_token play (demo [Ok not_json; Ok search_ok]) =
    (Raise (CollaboratorError "JSONDecodeError"),
     mkMachine (self (demo [Ok not_json; Ok search_ok])) [Ok search_ok]
       (sent (demo [Ok not_json; Ok search_ok]) ++ [token_post demo_bytes]))
  /\
  find play repr_elided (lit "Believer") None
       (demo [Ok not_json; Ok search_ok]) =
    (Raise (CollaboratorError "JSONDecodeError"),
     mkMachine (self (demo [Ok not_json; Ok search_ok])) [Ok search_ok]
       (sent (demo [Ok not_json; Ok search_ok]) ++ [token_post demo_bytes])).
Proof.
  do 3 (split; [reflexivity|]).
  exact (unparsable_token_body_raises play repr_elided (lit "Believer") None
           (demo [Ok not_json; Ok search_ok]) demo_bytes not_json
           (CollaboratorError "JSONDecodeError") [Ok search_ok]
           eq_refl eq_refl eq_refl).
Defined.

Lemma non_object_token_body_raises_witness :
  encode (credentials
            (self (demo [Ok (mkResponse 200 (Ok (JArr []))); Ok search_ok])))
    = Ok demo_bytes /\
  play (token_post demo_bytes)
       (net (demo [Ok (mkResponse 200 (Ok (JArr []))); Ok search_ok])) =
    (Ok (mkResponse 200 (Ok (JArr []))), [Ok search_ok]) /\
  json (mkResponse 200 (Ok (JArr []))) = Ok (JArr []) /\
  is_object (JArr []) = false /\
  _generate_auth_token play
    (demo [Ok (mkResponse 200 (Ok (JArr []))); Ok search_ok]) =
    (Raise AttributeError,
     mkMachine
       (self (demo [Ok (mkResponse 200 (Ok (JArr []))); Ok search_ok]))
       [Ok search_ok]
       (sent (demo [Ok (mkResponse 200 (Ok (JArr []))); Ok search_ok])
        ++ [token_post demo_bytes])) /\
  find play repr_elided (lit "Believer") None
    (demo [Ok (mkResponse 200 (Ok (JArr []))); Ok search_ok]) =
    (Raise AttributeError,
     mkMachine
       (self (demo [Ok (mkResponse 200 (Ok (JArr []))); Ok search_ok]))
       [Ok search_ok]
       (sent (demo [Ok (mkResponse 200 (Ok (JArr []))); Ok search_ok])
        ++ [token_post demo_bytes])).
Proof.
  do 4 (split; [reflexivity|]).
  exact (non_object_token_body_raises play repr_elided (lit "Believer") None
           (demo [Ok (mkResponse 200 (Ok (JArr []))); Ok search_ok])
           demo_bytes (mkResponse 200 (Ok (JArr []))) (JArr [])
           [Ok search_ok] eq_refl eq_refl eq_refl eq_refl).
Defined.

Lemma token_field_returned_untyped_witness :
  encode (credentials
            (self (demo [Ok (mkResponse 200
                               (Ok (JObj [(lit "token_type",
                                           JStr (lit "Bearer"));
                                          (lit "access_token", JInt 7)])))])))
    = Ok demo_bytes /\
  play (token_post demo_bytes)
       (net (demo [Ok (mkResponse 200
                         (Ok (JObj [(lit "token_type", JStr (lit "Bearer"));
                                    (lit "access_token", JInt 7)])))])) =
    (Ok (mkResponse 200
           (Ok (JObj [(lit "token_type", JStr (lit "Bearer"));
                      (lit "access_token", JInt 7)]))), []) /\
  json (mkResponse 200
          (Ok (JObj [(lit "token_type", JStr (lit "Bearer"));
                     (lit "access_token", JInt 7)]))) =
    Ok (JObj [(lit "token_type", JStr (lit "Bearer"));
              (lit "access_token", JInt 7)]) /\
  dict_lookup (lit "access_token")
    [(lit "token_type", JStr (lit "Bearer")); (lit "access_token", JInt 7)]
    = Some (JInt 7) /\
  fst (_generate_auth_token play
         (demo [Ok (mkResponse 200
                      (Ok (JObj [(lit "token_type", JStr (lit "Bearer"));
                                 (lit "access_token", JInt 7)])))])) =
    Ok (JInt 7).
Proof.
  do 4 (split; [reflexivity|]).
  exact (token_field_returned_untyped play
           (demo [Ok (mkResponse 200
                        (Ok (JObj [(lit "token_type", JStr (lit "Bearer"));
                                   (lit "access_token", JInt 7)])))])
           demo_bytes
           (mkResponse 200
              (Ok (JObj [(lit "token_type", JStr (lit "Bearer"));
                         (lit "access_token", JInt 7)])))
           []
           [(lit "token_type", JStr (lit "Bearer"));
            (lit "access_token", JInt 7)]
           (JInt 7) eq_refl eq_refl eq_refl eq_refl).
Defined.

Lemma search_failure_raises_after_get_witness :
  _generate_auth_token play (demo [Ok (token_body (lit "T")); Ok not_json]) =
    (Ok (JStr (lit "T")), demo_after_post [Ok not_json]) /\
  (fst (play (search_get (py_str repr_elided (JStr (lit "T")))
                (lit "Believer") (kind_or_default None))
             (net (demo_after_post [Ok not_json]))) =
     Raise (CollaboratorError "JSONDecodeError")
   \/ exists resp,
        fst (play (search_get (py_str repr_elided (JStr (lit "T")))
                     (lit "Believer") (kind_or_default None))
                  (net (demo_after_post [Ok not_json]))) = Ok resp /\
        json resp = Raise (CollaboratorError "JSONDecodeError")) /\
  fst (find play repr_elided (lit "Believer") None
         (demo [Ok (token_body (lit "T")); Ok not_json])) =
    Raise (CollaboratorError "JSONDecodeError") /\
  sent (snd (find play repr_elided (lit "Believer") None
               (demo [Ok (token_body (lit "T")); Ok not_json]))) =
    sent (demo_after_post [Ok not_json]) ++
    [search_get (py_str repr_elided (JStr (lit "T"))) (lit "Believer")
       (kind_or_default None)].
Proof.
  split; [reflexivity|].
  split; [right; exists not_json; split; reflexivity|].
  exact (search_failure_raises_after_get play repr_elided (lit "Believer")
           None (demo [Ok (token_body (lit "T")); Ok not_json])
           (demo_after_post [Ok not_json]) (JStr (lit "T"))
           (CollaboratorError "JSONDecodeError") eq_refl
           (or_intror (ex_intro _ not_json (conj eq_refl eq_refl)))).
Defined.

Lemma basic_header_determines_credentials_witness :
  sent (snd (_generate_auth_token play (colon_left script_ok))) =
    sent (colon_left script_ok)
    ++ [token_post (bytes_lit "YOUR_APP:ID:SECRET")] /\
  sent (snd (_generate_auth_token play (colon_right script_down))) =
    sent (colon_right script_down)
    ++ [token_post (bytes_lit "YOUR_APP:ID:SECRET")] /\
  headers (token_post (bytes_lit "YOUR_APP:ID:SECRET")) =
    headers (token_post (bytes_lit "YOUR_APP:ID:SECRET")) /\
  credentials (self (colon_left script_ok)) =
    credentials (self (colon_right script_down)).
Proof.
  do 3 (split; [reflexivity|]).
  exact (basic_header_determines_credentials play (colon_left script_ok)
           (colon_right script_down)
           (token_post (bytes_lit "YOUR_APP:ID:SECRET"))
           (token_post (bytes_lit "YOUR_APP:ID:SECRET"))
           eq_refl eq_refl eq_refl).
Defined.

Lemma basic_header_is_ascii_witness :
  encode (credentials (self (non_ascii script_ok))) = Ok non_ascii_bytes /\
  exists v,
    sent (snd (_generate_auth_token play (non_ascii script_ok))) =
      sent (non_ascii script_ok) ++
      [mkRequest POST BASE_TOKEN_URL
         (Some [(lit "grant_type", lit "client_credentials")])
         [(lit "Authorization", v)]] /\
    Forall (fun ch => ch < 128) v /\
    List.length v = (6 + 4 * ((List.length non_ascii_bytes + 2) / 3))%nat.
Proof.
  split; [reflexivity|].
  exact (basic_header_is_ascii play (non_ascii script_ok) non_ascii_bytes
           eq_refl).
Defined.

(** The header of that run, as the log has it. *)
Example non_ascii_header :
  sent (snd (_generate_auth_token play (non_ascii script_ok))) =
  [mkRequest POST BASE_TOKEN_URL
     (Some [(lit "grant_type", lit "client_credentials")])
     [(lit "Authorization", lit "Basic aWTigqw6c/CfmIA=")]].
Proof. reflexivity. Qed.

(** C3 as stated fails: a token response that is JSON and no object (here
    the empty list) has no "access_token" field, and yet the token
    operation raises [AttributeError] instead of returning [None], and the
    search call stops after the token POST without issuing its GET. *)
Lemma token_list_body_raises_instead :
  play (token_post demo_bytes) (net (demo script_list_body)) =
    (Ok (mkResponse 200 (Ok (JArr []))), [Ok search_ok]) /\
  json (mkResponse 200 (Ok (JArr []))) = Ok (JArr []) /\
  has_field (lit "access_token") (JArr []) = false /\
  fst (_generate_auth_token play (demo script_list_body)) =
    Raise AttributeError /\
  fst (find play repr_elided (lit "Imagine Dragons") (Some (lit "artist"))
         (demo script_list_body)) = Raise AttributeError /\
  sent (snd (find play repr_elided (lit "Imagine Dragons")
               (Some (lit "artist")) (demo script_list_body))) =
    [token_post demo_bytes].
Proof. repeat split. Qed.

Lemma session_log_is_exchanges_witness :
  encode (credentials (self (demo script_twice))) = Ok demo_bytes /\
  exists added,
    sent (run_calls play repr_elided session (demo script_twice)) =
      sent (demo script_twice) ++ added /\
    Exchanges (token_post demo_bytes) added /\
    (List.length added <= 2 * List.length session)%nat.
Proof.
  split; [reflexivity|].
  exact (session_log_is_exchanges play repr_elided session
           (demo script_twice) demo_bytes eq_refl).
Defined.

Lemma session_unencodable_is_inert_witness :
  encodable (credentials (self lone_surrogate)) = false /\
  run_calls play repr_elided session lone_surrogate = lone_surrogate.
Proof.
  split; [reflexivity|].
  exact (session_unencodable_is_inert play repr_elided session
           lone_surrogate eq_refl).
Defined.

(** The session above, run: five requests, the token call alone between
    the two searches. *)
Example session_run :
  sent (run_calls play repr_elided session (demo script_twice)) =
  [token_post demo_bytes;
   search_get (lit "T1") (lit "Believer") (lit "track");
   token_post demo_bytes;
   token_post demo_bytes;
   search_get (lit "None") (lit "Imagine Dragons") (lit "artist")].
Proof. reflexivity. Qed.

Example main_run :
  main play repr_elided keep script_ok [] =
  (Ok tt,
   (mkMachine (mkConnector (lit "YOUR_APP_ID") (lit "YOUR_APP_SECRET")) []
      [token_post demo_bytes;
       search_get (lit "T") (lit "Imagine Dragons") (lit "artist")],
    [artists_page])).
Proof. reflexivity. Qed.
